(** * Aggregation core of the disputes dashboard (src/src/calculations.py)

    A shallow embedding of the four aggregation functions
    [calculate_summary_metrics], [calculate_by_category],
    [calculate_by_date] and [calculate_top_disputes], together with the
    part of the data-frame library they call.

    Modelling conventions.
    - A data frame is column oriented, as in the library: an index length
      and an ordered association list of named, typed columns.
    - A numeric column has dtype float64: its cells are binary64 floats
      (the kernel's primitive floats), NaN is the missing value, and every
      sum, mean, product and quotient is the binary64 operation, in the
      order in which the library performs it.  An integer column (dtype
      int64) holds the counts of a result.
    - A string cell or a timestamp that is missing is [None]; a timestamp
      is a number of nanoseconds since 1970-01-01T00:00, an unbounded
      integer.
    - An exception is a value [Raise e] of the [result] type.
    - The exact value of a float, a rational, is used to state properties
      and to order rows; it is never used to compute a sum. *)

From Stdlib Require Import List Bool ZArith QArith Qround Qabs Qpower String.
From Stdlib Require Import Floats Uint63.
From Stdlib Require Import Lia Lqa Permutation Sorted.
Import ListNotations.

Open Scope Z_scope.
Open Scope Q_scope.
Open Scope string_scope.

(** ** Exceptions *)

Inductive exn : Type :=
| KeyError
| TypeError
| ValueError
| AttributeError.

Inductive result (A : Type) : Type :=
| Ok (a : A)
| Raise (e : exn).

Arguments Ok {A} a.
Arguments Raise {A} e.

Definition bind {A B : Type} (r : result A) (k : A -> result B) : result B :=
  match r with
  | Ok a => k a
  | Raise e => Raise e
  end.

Notation "x <- r ;; k" := (bind r (fun x => k))
  (at level 61, r at next level, right associativity).

Definition raises {A : Type} (r : result A) : Prop :=
  exists e, r = Raise e.

(** ** Columns and frames *)

Inductive column : Type :=
| NumCol (xs : list float)
| IntCol (ns : list Z)
| StrCol (ss : list (option string))
| TimeCol (ts : list (option Z)).

Record DataFrame : Type := mkDF {
  nrows : nat;
  data : list (string * column)
}.

(** [pd.DataFrame()] *)
Definition empty_frame : DataFrame := mkDF 0 [].



Fixpoint lookup (name : string) (cols : list (string * column)) : option column :=
  match cols with
  | [] => None
  | (k, c) :: rest => if String.eqb name k then Some c else lookup name rest
  end.

(** [name in df.columns] *)
Definition has_column (name : string) (df : DataFrame) : bool :=
  match lookup name (data df) with
  | Some _ => true
  | None => false
  end.

(** [df[name]] *)
Definition getitem (df : DataFrame) (name : string) : result column :=
  match lookup name (data df) with
  | Some c => Ok c
  | None => Raise KeyError
  end.



(** The integer [n] as a float ([astype(float64)]). *)
Definition float_of_Z (n : Z) : float :=
  if (n <? 0)%Z then PrimFloat.opp (PrimFloat.of_uint63 (Uint63.of_Z (- n)))
  else PrimFloat.of_uint63 (Uint63.of_Z n).

(** A column of floats: a float64 column as it is; an int64 column, which
    the results have and the records of the data model do not, read as
    floats; [TypeError] for the other dtypes. *)
Definition as_numeric (c : column) : result (list float) :=
  match c with
  | NumCol xs => Ok xs
  | IntCol ns => Ok (map float_of_Z ns)
  | _ => Raise TypeError
  end.

(** ** Selecting rows *)

(** [xs[mask]] for a boolean mask. *)
Fixpoint mask_filter {A : Type} (mask : list bool) (xs : list A) : list A :=
  match mask, xs with
  | b :: mask', x :: xs' =>
      if b then x :: mask_filter mask' xs' else mask_filter mask' xs'
  | _, _ => []
  end.

(** [xs.take(idx)] for a list of positions. *)
Definition take {A : Type} (idx : list nat) (xs : list A) : list A :=
  flat_map (fun i => match nth_error xs i with
                     | Some x => [x]
                     | None => []
                     end) idx.

Definition col_map (f : forall A : Type, list A -> list A) (c : column) : column :=
  match c with
  | NumCol xs => NumCol (f _ xs)
  | IntCol ns => IntCol (f _ ns)
  | StrCol ss => StrCol (f _ ss)
  | TimeCol ts => TimeCol (f _ ts)
  end.

Definition count_true (mask : list bool) : nat :=
  List.length (filter (fun b => b) mask).

(** [df[mask]] *)
Definition filter_rows (mask : list bool) (df : DataFrame) : DataFrame :=
  mkDF (count_true mask)
       (map (fun kc => (fst kc, col_map (fun A => @mask_filter A mask) (snd kc)))
            (data df)).


(** ** Reductions of a float64 series *)

(** [isna] *)
Definition isna (x : float) : bool := PrimFloat.is_nan x.

(** The values with every NaN replaced by 0, as the reductions that skip
    missing values prepare them. *)
Definition fill_zero (xs : list float) : list float :=
  map (fun x => if isna x then PrimFloat.zero else x) xs.

(** [res += a[i]] over a run of elements. *)
Fixpoint sum_loop (acc : float) (xs : list float) : float :=
  match xs with
  | [] => acc
  | x :: rest => sum_loop (acc + x)%float rest
  end.

Definition add_lanes (r chunk : list float) : list float :=
  map (fun p => (fst p + snd p)%float) (combine r chunk).

(** The unrolled loop of the array library's sum: eight running sums,
    each fed by every eighth element, while eight more elements remain. *)
Fixpoint unrolled (fuel : nat) (r rest : list float) : list float * list float :=
  match fuel with
  | O => (r, rest)
  | S fuel' =>
      if Nat.leb 8 (List.length rest)
      then unrolled fuel' (add_lanes r (firstn 8 rest)) (skipn 8 rest)
      else (r, rest)
  end.

Definition combine_lanes (r : list float) : float :=
  match r with
  | [r0; r1; r2; r3; r4; r5; r6; r7] =>
      (((r0 + r1) + (r2 + r3)) + ((r4 + r5) + (r6 + r7)))%float
  | _ => PrimFloat.zero
  end.

(** A block of 8 to 128 elements. *)
Definition block_sum (xs : list float) : float :=
  let (r, rest) := unrolled (List.length xs) (firstn 8 xs) (skipn 8 xs) in
  sum_loop (combine_lanes r) rest.

(** The pairwise summation of the array library: fewer than 8 elements
    are added from left to right, up to 128 by the unrolled loop, and a
    longer run is split near its middle, at a multiple of 8.  [fuel]
    bounds the depth of the splitting; the length of the run is enough. *)
Fixpoint pairwise_sum (fuel : nat) (xs : list float) : float :=
  let n := List.length xs in
  if Nat.ltb n 8 then sum_loop PrimFloat.zero xs
  else if Nat.leb n 128 then block_sum xs
  else
    match fuel with
    | O => block_sum xs
    | S fuel' =>
        let n2 := (n / 2)%nat in
        let n2 := (n2 - n2 mod 8)%nat in
        (pairwise_sum fuel' (firstn n2 xs) + pairwise_sum fuel' (skipn n2 xs))%float
    end.

(** [s.sum()]: NaN counts as 0, the empty sum is 0; the reduction starts
    from 0 and adds the pairwise sum of the values.  (Whether a sum that
    is zero is +0 or -0 is not tracked.) *)
Definition series_sum (xs : list float) : float :=
  (PrimFloat.zero + pairwise_sum (List.length xs) (fill_zero xs))%float.

(** [s.count()]: the number of values that are not missing. *)
Definition series_count (xs : list float) : nat :=
  List.length (filter (fun x => negb (isna x)) xs).

(** [s.mean()]: the sum over the count, NaN when no value is present. *)
Definition series_mean (xs : list float) : float :=
  match series_count xs with
  | O => PrimFloat.nan
  | S _ => (series_sum xs / float_of_Z (Z.of_nat (series_count xs)))%float
  end.

(** [s > 0] and [s < 0]: a comparison with NaN is False. *)
Definition gt_zero (xs : list float) : list bool :=
  map (fun x => PrimFloat.ltb PrimFloat.zero x) xs.

Definition lt_zero (xs : list float) : list bool :=
  map (fun x => PrimFloat.ltb x PrimFloat.zero) xs.

(** ** calculate_summary_metrics *)

Record Metrics : Type := mkMetrics {
  total_disputes : nat;
  total_discrepancy_value : float;
  total_gallons : float;
  avg_discrepancy_per_dispute : float;
  avg_gallons_per_dispute : float;
  total_positive_discrepancy : float;
  total_negative_discrepancy : float;
  disputes_with_positive_value : nat;
  disputes_with_negative_value : nat
}.

Definition calculate_summary_metrics (df : DataFrame) : result Metrics :=
  dv <- getitem df "discrepancy_value" ;;
  dv <- as_numeric dv ;;
  gl <- getitem df "gallons" ;;
  gl <- as_numeric gl ;;
  pos <- getitem (filter_rows (gt_zero dv) df) "discrepancy_value" ;;
  pos <- as_numeric pos ;;
  neg <- getitem (filter_rows (lt_zero dv) df) "discrepancy_value" ;;
  neg <- as_numeric neg ;;
  Ok {| total_disputes := nrows df;
        total_discrepancy_value := series_sum dv;
        total_gallons := series_sum gl;
        avg_discrepancy_per_dispute := series_mean dv;
        avg_gallons_per_dispute := series_mean gl;
        total_positive_discrepancy := series_sum pos;
        total_negative_discrepancy := PrimFloat.abs (series_sum neg);
        disputes_with_positive_value := nrows (filter_rows (gt_zero dv) df);
        disputes_with_negative_value := nrows (filter_rows (lt_zero dv) df) |}.

(** ** The exact value of a float *)

(** The rational a finite float stands for; none for NaN and the
    infinities. *)
Definition float_value (x : float) : option Q :=
  match Prim2SF x with
  | S754_zero _ => Some 0
  | S754_finite s m e =>
      let q := inject_Z (Zpos m) * Qpower 2 e in
      Some (if s then - q else q)
  | _ => None
  end.

Definition value_or_zero (x : float) : Q :=
  match float_value x with
  | Some q => q
  | None => 0
  end.

(** The sum of the exact values, without rounding. *)
Fixpoint exact_sum (xs : list float) : Q :=
  match xs with
  | [] => 0
  | x :: rest => value_or_zero x + exact_sum rest
  end.

(** The float [s] is the sum of [xs] without any rounding error. *)
Definition is_exact_sum (s : float) (xs : list float) : bool :=
  match float_value s with
  | Some q => Qeq_bool q (exact_sum xs)
  | None => false
  end.

(** The exact value used to order floats: an infinity is put beyond
    every finite float, NaN has no place. *)
Definition float_rank (x : float) : option Q :=
  match Prim2SF x with
  | S754_nan => None
  | S754_infinity s => Some (if s then - Qpower 2 1024 else Qpower 2 1024)
  | S754_zero _ => Some 0
  | S754_finite s m e =>
      let q := inject_Z (Zpos m) * Qpower 2 e in
      Some (if s then - q else q)
  end.

(** ** Sorting

    A stable insertion sort: an element goes in front of the first
    element it is [leb] to, so elements that compare equal keep the order
    in which they were given. *)

Fixpoint insert_by {A : Type} (leb : A -> A -> bool) (x : A) (l : list A) : list A :=
  match l with
  | [] => [x]
  | y :: l' => if leb x y then x :: l else y :: insert_by leb x l'
  end.

Fixpoint sort_by {A : Type} (leb : A -> A -> bool) (l : list A) : list A :=
  match l with
  | [] => []
  | x :: l' => insert_by leb x (sort_by leb l')
  end.

Fixpoint present_at (i : nat) (keys : list (option Q)) : list (nat * Q) :=
  match keys with
  | [] => []
  | Some q :: rest => (i, q) :: present_at (S i) rest
  | None :: rest => present_at (S i) rest
  end.

Fixpoint missing_at (i : nat) (keys : list (option Q)) : list nat :=
  match keys with
  | [] => []
  | Some _ :: rest => missing_at (S i) rest
  | None :: rest => i :: missing_at (S i) rest
  end.

Definition key_desc (a b : nat * Q) : bool := Qle_bool (snd b) (snd a).

(** The rows in descending order of the key, equal keys in their original
    order, rows with a missing key last. *)
Definition descending_order (keys : list (option Q)) : list nat :=
  map fst (sort_by key_desc (present_at 0 keys)) ++ missing_at 0 keys.

(** ** Group keys *)

Inductive scalar : Type :=
| SNum (x : float)
| SInt (n : Z)
| SStr (s : string)
| STime (t : Z).

Definition rank_or_zero (x : float) : Q :=
  match float_rank x with
  | Some q => q
  | None => 0
  end.

Definition kind (a : scalar) : nat :=
  match a with
  | SNum _ => 0
  | SInt _ => 1
  | SStr _ => 2
  | STime _ => 3
  end.

Definition scalar_compare (a b : scalar) : comparison :=
  match a, b with
  | SNum x, SNum y => Qcompare (rank_or_zero x) (rank_or_zero y)
  | SInt x, SInt y => Z.compare x y
  | SStr x, SStr y => String.compare x y
  | STime x, STime y => Z.compare x y
  | _, _ => Nat.compare (kind a) (kind b)
  end.

Definition scalar_eqb (a b : scalar) : bool :=
  match scalar_compare a b with
  | Eq => true
  | _ => false
  end.

Definition scalar_leb (a b : scalar) : bool :=
  match scalar_compare a b with
  | Gt => false
  | _ => true
  end.

(** The cells of a column as group keys; NaN is the missing float. *)
Definition cells (c : column) : list (option scalar) :=
  match c with
  | NumCol xs => map (fun x => if isna x then None else Some (SNum x)) xs
  | IntCol ns => map (fun n => Some (SInt n)) ns
  | StrCol ss => map (option_map SStr) ss
  | TimeCol ts => map (option_map STime) ts
  end.

(** A column of the dtype of [like] that holds the keys [ks]. *)
Definition column_of_keys (like : column) (ks : list scalar) : column :=
  match like with
  | NumCol _ =>
      NumCol (map (fun k => match k with SNum x => x | _ => PrimFloat.nan end) ks)
  | IntCol _ => IntCol (map (fun k => match k with SInt n => n | _ => 0%Z end) ks)
  | StrCol _ => StrCol (map (fun k => match k with SStr s => Some s | _ => None end) ks)
  | TimeCol _ => TimeCol (map (fun k => match k with STime t => Some t | _ => None end) ks)
  end.

(** The values that are present, in order. *)
Fixpoint dropna {A : Type} (xs : list (option A)) : list A :=
  match xs with
  | [] => []
  | Some x :: rest => x :: dropna rest
  | None :: rest => dropna rest
  end.

(** The distinct keys, each at its first occurrence. *)
Fixpoint unique (ks : list scalar) : list scalar :=
  match ks with
  | [] => []
  | k :: rest => k :: filter (fun c => negb (scalar_eqb k c)) (unique rest)
  end.

(** [groupby(col)]: the distinct keys that are present, in ascending
    order; a row whose key is missing belongs to no group. *)
Definition group_keys (keys : list (option scalar)) : list scalar :=
  sort_by scalar_leb (unique (dropna keys)).

Definition group_mask (k : scalar) (keys : list (option scalar)) : list bool :=
  map (fun o => match o with
                | Some c => scalar_eqb c k
                | None => false
                end) keys.

(** ** Reductions of a group

    The grouped sum is a compensated (Kahan) summation over the values
    of the group that are present, in row order. *)

Fixpoint kahan_loop (sumx comp : float) (xs : list float) : float :=
  match xs with
  | [] => sumx
  | v :: rest =>
      if isna v then kahan_loop sumx comp rest
      else
        let y := (v - comp)%float in
        let t := (sumx + y)%float in
        let c := ((t - sumx) - y)%float in
        let c := if isna c then PrimFloat.zero else c in
        kahan_loop t c rest
  end.

Definition group_sum (xs : list float) : float :=
  kahan_loop PrimFloat.zero PrimFloat.zero xs.

Definition group_mean (xs : list float) : float :=
  match series_count xs with
  | O => PrimFloat.nan
  | S _ => (group_sum xs / float_of_Z (Z.of_nat (series_count xs)))%float
  end.

(** ** Rounding to two decimals

    [rint] rounds to the nearest integer, half to even: below 2^52 in
    magnitude, adding and subtracting 2^52 does it; at and above, a float
    is an integer already.  The sign of the argument is kept on a zero. *)

Definition two52 : float := 0x1p52%float.

Definition is_negative (x : float) : bool :=
  PrimFloat.ltb x PrimFloat.zero
  || (PrimFloat.eqb x PrimFloat.zero
      && PrimFloat.ltb (PrimFloat.one / x)%float PrimFloat.zero).

Definition rint (x : float) : float :=
  if PrimFloat.ltb (PrimFloat.abs x) two52 then
    let r := if is_negative x then ((x - two52) + two52)%float
             else ((x + two52) - two52)%float in
    if PrimFloat.eqb r PrimFloat.zero
    then (if is_negative x then PrimFloat.neg_zero else PrimFloat.zero)
    else r
  else x.

(** [round(x, 2)]: scale by 100, round to an integer, scale back. *)
Definition round2 (x : float) : float := (rint (x * 100) / 100)%float.

(** ** calculate_by_category *)

Record GroupRow : Type := mkGroupRow {
  g_key : scalar;
  g_total_discrepancy : float;
  g_avg_discrepancy : float;
  g_count : nat;
  g_total_gallons : float;
  g_avg_gallons : float;
  g_avg_expected_rate : float;
  g_avg_billed_rate : float
}.

(** [.agg({...})] on one group. *)
Definition agg_group (keys : list (option scalar)) (dv gl er br : list float)
    (k : scalar) : GroupRow :=
  let m := group_mask k keys in
  {| g_key := k;
     g_total_discrepancy := group_sum (mask_filter m dv);
     g_avg_discrepancy := group_mean (mask_filter m dv);
     g_count := series_count (mask_filter m dv);
     g_total_gallons := group_sum (mask_filter m gl);
     g_avg_gallons := group_mean (mask_filter m gl);
     g_avg_expected_rate := group_mean (mask_filter m er);
     g_avg_billed_rate := group_mean (mask_filter m br) |}.

(** [.round(2)] on one row; the integer count is left as it is. *)
Definition round_row (r : GroupRow) : GroupRow :=
  {| g_key := g_key r;
     g_total_discrepancy := round2 (g_total_discrepancy r);
     g_avg_discrepancy := round2 (g_avg_discrepancy r);
     g_count := g_count r;
     g_total_gallons := round2 (g_total_gallons r);
     g_avg_gallons := round2 (g_avg_gallons r);
     g_avg_expected_rate := round2 (g_avg_expected_rate r);
     g_avg_billed_rate := round2 (g_avg_billed_rate r) |}.

Definition by_category_names : list string :=
  ["total_discrepancy"; "avg_discrepancy"; "count"; "total_gallons";
   "avg_gallons"; "avg_expected_rate"; "avg_billed_rate"].

(** The rows of the groups, rounded, before they are sorted. *)
Definition grouped_rows (key : column) (dv gl er br : list float) : list GroupRow :=
  map round_row (map (agg_group (cells key) dv gl er br) (group_keys (cells key))).

(** [sort_values('total_discrepancy', ascending=False)]: descending
    totals, a NaN total last.  The library's default sort does not say
    in which order it leaves rows with equal totals; here they stay in
    the order of their keys. *)
Definition sort_rows (rows : list GroupRow) : list GroupRow :=
  take (descending_order (map (fun r => float_rank (g_total_discrepancy r)) rows))
       rows.

Definition group_rows (key : column) (dv gl er br : list float) : list GroupRow :=
  sort_rows (grouped_rows key dv gl er br).

Definition calculate_by_category (df : DataFrame) (category_col : string)
    : result DataFrame :=
  if negb (has_column category_col df) then Ok empty_frame
  else
    key <- getitem df category_col ;;
    dv <- getitem df "discrepancy_value" ;;
    dv <- as_numeric dv ;;
    gl <- getitem df "gallons" ;;
    gl <- as_numeric gl ;;
    er <- getitem df "expected_rate" ;;
    er <- as_numeric er ;;
    br <- getitem df "billed_rate" ;;
    br <- as_numeric br ;;
    let rows := group_rows key dv gl er br in
    (* reset_index cannot insert a column whose name is taken *)
    if existsb (String.eqb category_col) by_category_names then Raise ValueError
    else
      Ok (mkDF (List.length rows)
            [ (category_col, column_of_keys key (map g_key rows));
              ("total_discrepancy", NumCol (map g_total_discrepancy rows));
              ("avg_discrepancy", NumCol (map g_avg_discrepancy rows));
              ("count", IntCol (map (fun r => Z.of_nat (g_count r)) rows));
              ("total_gallons", NumCol (map g_total_gallons rows));
              ("avg_gallons", NumCol (map g_avg_gallons rows));
              ("avg_expected_rate", NumCol (map g_avg_expected_rate rows));
              ("avg_billed_rate", NumCol (map g_avg_billed_rate rows)) ]).

(** ** calculate_top_disputes *)



(** The positions [nlargest(n, col)] selects, with the default
    [keep='first']: the first [n] rows in descending order, rows with
    equal values in their original order; none when [n <= 0]. *)
Definition nlargest_positions (n : Z) (keys : list (option Q)) : list nat :=
  if (n <=? 0)%Z then []
  else firstn (Z.to_nat n) (descending_order keys).



(** ** Calendar

    Days are counted from 1970-01-01 (a Thursday); a month is numbered
    [12 * year + (month - 1)]; a week runs from Monday to Sunday and week 0
    is the one of 1970-01-01. *)

Definition ns_per_day : Z := 86400000000000.

Definition day_of (t : Z) : Z := (t / ns_per_day)%Z.

Definition days_from_civil (y m d : Z) : Z :=
  let y' := if (m <=? 2)%Z then (y - 1)%Z else y in
  let era := (y' / 400)%Z in
  let yoe := (y' - era * 400)%Z in
  let mp := if (m <=? 2)%Z then (m + 9)%Z else (m - 3)%Z in
  let doy := ((153 * mp + 2) / 5 + d - 1)%Z in
  let doe := (yoe * 365 + yoe / 4 - yoe / 100 + doy)%Z in
  (era * 146097 + doe - 719468)%Z.

(** The month within the 400-year cycle of a day of the cycle (day 0 is a
    1st of March), counted from January of the first year. *)
Definition month_of_cycle_day (doe : Z) : Z :=
  let yoe := ((doe - doe / 1460 + doe / 36524 - doe / 146096) / 365)%Z in
  let doy := (doe - (365 * yoe + yoe / 4 - yoe / 100))%Z in
  let mp := ((5 * doy + 2) / 153)%Z in
  (12 * yoe + mp + 2)%Z.

Definition month_of_day (d : Z) : Z :=
  let z := (d + 719468)%Z in
  (4800 * (z / 146097) + month_of_cycle_day (z mod 146097))%Z.

Definition first_day_of_month (b : Z) : Z :=
  days_from_civil (b / 12) (b mod 12 + 1) 1.

(** The resampling frequencies of the docstring: 'D', 'W' and 'M'. *)
Inductive Freq : Type :=
| Freq_D
| Freq_W
| Freq_M.

(** The bucket a timestamp falls in. *)
Definition bucket (f : Freq) (t : Z) : Z :=
  match f with
  | Freq_D => day_of t
  | Freq_W => ((day_of t + 3) / 7)%Z
  | Freq_M => month_of_day (day_of t)
  end.

(** The first nanosecond of a bucket. *)
Definition bucket_start (f : Freq) (b : Z) : Z :=
  match f with
  | Freq_D => (b * ns_per_day)%Z
  | Freq_W => ((7 * b - 3) * ns_per_day)%Z
  | Freq_M => (first_day_of_month b * ns_per_day)%Z
  end.

(** The label of a bucket in the result: a day is labelled by its start;
    a week by its Sunday and a month by its last day, at midnight. *)
Definition bucket_label (f : Freq) (b : Z) : Z :=
  match f with
  | Freq_D => bucket_start f b
  | _ => (bucket_start f (b + 1) - ns_per_day)%Z
  end.

Definition bucket_last (f : Freq) (b : Z) : Z := (bucket_start f (b + 1) - 1)%Z.

Definition zrange (lo : Z) (n : nat) : list Z :=
  map (fun i => (lo + Z.of_nat i)%Z) (seq 0 n).

(** For 'W' and 'M' the bin edges reach one bucket further when the latest
    timestamp is the last nanosecond of its bucket. *)
Definition extra_bucket (f : Freq) (hi : Z) : nat :=
  match f with
  | Freq_D => O
  | _ => if (hi =? bucket_last f (bucket f hi))%Z then 1%nat else O
  end.

(** The buckets [resample(freq)] makes for an index: none for an empty
    index, and otherwise every bucket from the one of the earliest
    timestamp to the one of the latest.  An index that holds rows but no
    timestamp has no minimum to start from, and the call fails. *)
Definition resample_buckets (f : Freq) (ts : list (option Z)) : result (list Z) :=
  match ts with
  | [] => Ok []
  | _ :: _ =>
      match dropna ts with
      | [] => Raise AttributeError
      | t0 :: rest =>
          let lo := fold_right Z.min t0 rest in
          let hi := fold_right Z.max t0 rest in
          Ok (zrange (bucket f lo)
                (Z.to_nat (bucket f hi - bucket f lo + 1) + extra_bucket f hi))
      end
  end.

(** The rows in ascending order of the timestamp, equal timestamps in
    their original order: the order in which [resample] goes through the
    rows. *)
Definition time_order (ts : list (option Z)) : list nat :=
  descending_order (map (option_map (fun t => inject_Z (- t))) ts).

Definition in_bucket (f : Freq) (b : Z) (ts : list (option Z)) (i : nat) : bool :=
  match nth_error ts i with
  | Some (Some t) => (bucket f t =? b)%Z
  | _ => false
  end.

(** The rows of a bucket, in time order; a row without a timestamp is in
    no bucket. *)
Definition bucket_rows (f : Freq) (b : Z) (ts : list (option Z)) : list nat :=
  filter (in_bucket f b ts) (time_order ts).

Definition by_date_names : list string :=
  ["total_discrepancy"; "dispute_count"; "total_gallons"].

(** [df.set_index(name)] takes the column out of the frame. *)
Definition drop_column (name : string) (cols : list (string * column))
    : list (string * column) :=
  filter (fun kc => negb (String.eqb name (fst kc))) cols.

Section ByDate.

(** What [pd.to_datetime] makes of a string ([None] when it cannot be
    read as a date) and of a number. *)
Variable parse_datetime : string -> option Z.
Variable number_to_ns : float -> option Z.

Fixpoint parse_all (ss : list (option string)) : result (list (option Z)) :=
  match ss with
  | [] => Ok []
  | None :: rest => ts <- parse_all rest ;; Ok (None :: ts)
  | Some s :: rest =>
      match parse_datetime s with
      | Some t => ts <- parse_all rest ;; Ok (Some t :: ts)
      | None => Raise ValueError
      end
  end.

(** [pd.to_datetime(col)] with the default [errors='raise']. *)
Definition to_datetime (c : column) : result (list (option Z)) :=
  match c with
  | TimeCol ts => Ok ts
  | NumCol xs => Ok (map number_to_ns xs)
  | IntCol ns => Ok (map (fun n => Some n) ns)
  | StrCol ss => parse_all ss
  end.

Definition calculate_by_date (df : DataFrame) (date_col : string) (freq : Freq)
    : result DataFrame :=
  if negb (has_column date_col df) then Ok empty_frame
  else
    c <- getitem df date_col ;;
    ts <- to_datetime c ;;
    let df_copy := mkDF (nrows df) (drop_column date_col (data df)) in
    buckets <- resample_buckets freq ts ;;
    dv <- getitem df_copy "discrepancy_value" ;;
    dv <- as_numeric dv ;;
    gl <- getitem df_copy "gallons" ;;
    gl <- as_numeric gl ;;
    (* reset_index cannot insert a column whose name is taken *)
    if existsb (String.eqb date_col) by_date_names then Raise ValueError
    else
      Ok (mkDF (List.length buckets)
            [ (date_col, TimeCol (map (fun b => Some (bucket_label freq b)) buckets));
              ("total_discrepancy",
               NumCol (map (fun b => group_sum (take (bucket_rows freq b ts) dv)) buckets));
              ("dispute_count",
               IntCol (map (fun b => Z.of_nat (series_count (take (bucket_rows freq b ts) dv)))
                         buckets));
              ("total_gallons",
               NumCol (map (fun b => group_sum (take (bucket_rows freq b ts) gl)) buckets)) ]).

End ByDate.

(** * Properties *)

(** ** Notions used in the statements *)

(** The number of records whose value is zero, and of those whose value
    is missing. *)
Definition count_zero (xs : list float) : nat :=
  List.length (filter (fun x => PrimFloat.eqb x PrimFloat.zero) xs).

Definition count_nan (xs : list float) : nat :=
  List.length (filter isna xs).








(** ** Record sets used as examples *)

(** Scenario A of the specification. *)
Definition scenario_A_values : list float := [100; -50; 0]%float.

Definition scenario_A : DataFrame :=
  mkDF 3 [ ("discrepancy_value", NumCol scenario_A_values);
           ("gallons", NumCol [10; 20; 30]%float) ].

(** The amounts 0.1, -0.3 and 0.2, as the nearest floats. *)
Definition tenths_values : list float :=
  [0x1.999999999999ap-4; -0x1.3333333333333p-2; 0x1.999999999999ap-3]%float.

Definition tenths : DataFrame :=
  mkDF 3 [ ("discrepancy_value", NumCol tenths_values);
           ("gallons", NumCol [10; 20; 30]%float) ].

Definition disputes_values : list float := [5; 30; -10; 30]%float.


(** The sort keys of its [discrepancy_value] column. *)
Definition disputes_keys : list (option Q) := map float_rank disputes_values.




(** Scenario B of the specification, with a record of no category. *)
Definition scenario_B : DataFrame :=
  mkDF 3 [ ("customerName", StrCol [Some "X"; None; Some "X"]);
           ("discrepancy_value", NumCol [30; 5; -10]%float);
           ("gallons", NumCol [1; 2; 3]%float);
           ("expected_rate", NumCol [2; 2; 2]%float);
           ("billed_rate", NumCol [3; 2; 1]%float) ].



(** [p] holds of the [n] integers from [z] on. *)
Fixpoint all_from (n : nat) (z : Z) (p : Z -> bool) : bool :=
  match n with
  | O => true
  | S n' => p z && all_from n' (z + 1)%Z p
  end.

(** A day of the 400-year cycle lies in the month it is assigned to. *)
Definition cycle_day_ok (doe : Z) : bool :=
  let k := month_of_cycle_day doe in
  (first_day_of_month k + 719468 <=? doe)%Z
  && (doe <? first_day_of_month (k + 1) + 719468)%Z.

(** A month of the 400-year cycle starts before the next one. *)
Definition cycle_month_ok (k : Z) : bool :=
  (first_day_of_month k <? first_day_of_month (k + 1))%Z.

(** A reader of dates that knows no format, and the reading of a number
    as whole nanoseconds. *)
Definition reads_no_date (s : string) : option Z := None.

Definition float_to_ns (x : float) : option Z :=
  option_map Qfloor (float_value x).



(** Scenario D of the specification: records on 2024-01-03 and
    2024-01-01, and one without a timestamp. *)
Definition scenario_D_times : list (option Z) :=
  [Some 1704240000000000000%Z; None; Some 1704067200000000000%Z].

Definition scenario_D : DataFrame :=
  mkDF 3 [ ("disputedAt", TimeCol scenario_D_times);
           ("discrepancy_value", NumCol [100; -50; 7]%float);
           ("gallons", NumCol [1; 2; 3]%float) ].











(** ** Frames *)

Lemma lookup_map_columns (f : column -> column) name cols :
  lookup name (map (fun kc => (fst kc, f (snd kc))) cols)
  = option_map f (lookup name cols).
Proof.
  induction cols as [|[k c] cols IH]; simpl; [reflexivity|].
  destruct (String.eqb name k); [reflexivity|exact IH].
Qed.

Lemma getitem_filter_rows mask df name :
  getitem (filter_rows mask df) name
  = match getitem df name with
    | Ok c => Ok (col_map (fun A => @mask_filter A mask) c)
    | Raise e => Raise e
    end.
Proof.
  unfold getitem, filter_rows; simpl.
  rewrite lookup_map_columns.
  destruct (lookup name (data df)); reflexivity.
Qed.

Lemma getitem_lookup df name c :
  lookup name (data df) = Some c -> getitem df name = Ok c.
Proof. unfold getitem; intros ->; reflexivity. Qed.


(** ** The sign and the exact value of a float *)

Lemma finite_value_pos m e : 0 < inject_Z (Zpos m) * Qpower 2 e.
Proof.
  apply Qmult_lt_0_compat; [reflexivity|].
  apply Qpower_0_lt. reflexivity.
Qed.

Lemma neither_sign_value x :
  PrimFloat.ltb PrimFloat.zero x = false ->
  PrimFloat.ltb x PrimFloat.zero = false ->
  value_or_zero x == 0.
Proof.
  rewrite !FloatAxioms.ltb_spec. unfold value_or_zero, float_value.
  change (Prim2SF PrimFloat.zero) with (S754_zero false).
  destruct (Prim2SF x) as [s|s| |s m e]; simpl; try reflexivity.
  destruct s; simpl; discriminate.
Qed.

Lemma negative_value x :
  PrimFloat.ltb x PrimFloat.zero = true -> value_or_zero x <= 0.
Proof.
  rewrite FloatAxioms.ltb_spec. unfold value_or_zero, float_value.
  change (Prim2SF PrimFloat.zero) with (S754_zero false).
  destruct (Prim2SF x) as [s|s| |s m e]; simpl; try (intros; apply Qle_refl).
  destruct s; simpl; [|discriminate].
  intros _. pose proof (finite_value_pos m e). lra.
Qed.

Lemma positive_not_negative x :
  PrimFloat.ltb PrimFloat.zero x = true ->
  PrimFloat.ltb x PrimFloat.zero = false.
Proof.
  rewrite !FloatAxioms.ltb_spec.
  change (Prim2SF PrimFloat.zero) with (S754_zero false).
  destruct (Prim2SF x) as [s|s| |s m e]; simpl; try discriminate;
    destruct s; simpl; try discriminate; reflexivity.
Qed.

Lemma abs_value x q :
  float_value x = Some q ->
  exists r, float_value (PrimFloat.abs x) = Some r /\ r == Qabs q.
Proof.
  unfold float_value. rewrite FloatAxioms.abs_spec.
  destruct (Prim2SF x) as [s|s| |s m e]; simpl; try discriminate.
  - intros H. injection H as <-. exists 0. split; reflexivity.
  - intros H. injection H as <-.
    exists (inject_Z (Zpos m) * Qpower 2 e). split; [reflexivity|].
    pose proof (finite_value_pos m e).
    destruct s.
    + rewrite Qabs_opp, Qabs_pos; [reflexivity|lra].
    + rewrite Qabs_pos; [reflexivity|lra].
Qed.

(** Every float is of exactly one kind: positive, negative, zero or NaN. *)
Lemma sign_cases x :
  let p := PrimFloat.ltb PrimFloat.zero x in
  let n := PrimFloat.ltb x PrimFloat.zero in
  let z := PrimFloat.eqb x PrimFloat.zero in
  let m := isna x in
  (p, n, z, m) = (true, false, false, false)
  \/ (p, n, z, m) = (false, true, false, false)
  \/ (p, n, z, m) = (false, false, true, false)
  \/ (p, n, z, m) = (false, false, false, true).
Proof.
  unfold isna, PrimFloat.is_nan. cbv zeta.
  rewrite !FloatAxioms.ltb_spec, !FloatAxioms.eqb_spec.
  change (Prim2SF PrimFloat.zero) with (S754_zero false).
  destruct (Prim2SF x) as [s|s| |s m e]; try destruct s;
    unfold SFltb, SFeqb, SFcompare;
    rewrite ?Z.compare_refl, ?Pos.compare_cont_refl; cbn; tauto.
Qed.

(** ** The sign partition of a series *)

Lemma exact_negative_part xs :
  exact_sum (mask_filter (lt_zero xs) xs) <= 0.
Proof.
  induction xs as [|x xs IH]; simpl; [lra|].
  destruct (PrimFloat.ltb x PrimFloat.zero) eqn:E; simpl; [|exact IH].
  pose proof (negative_value x E). lra.
Qed.

Lemma exact_sign_partition xs :
  exact_sum (mask_filter (gt_zero xs) xs)
  + exact_sum (mask_filter (lt_zero xs) xs) == exact_sum xs.
Proof.
  induction xs as [|x xs IH]; simpl; [lra|].
  destruct (PrimFloat.ltb PrimFloat.zero x) eqn:E1.
  - rewrite (positive_not_negative x E1). simpl. lra.
  - destruct (PrimFloat.ltb x PrimFloat.zero) eqn:E2; simpl; [lra|].
    pose proof (neither_sign_value x E1 E2). lra.
Qed.

Lemma sign_partition_count xs :
  (count_true (gt_zero xs) + count_true (lt_zero xs)
   + count_zero xs + count_nan xs = List.length xs)%nat.
Proof.
  unfold count_true, count_zero, count_nan.
  induction xs as [|x xs IH]; simpl; [reflexivity|].
  destruct (sign_cases x) as [H|[H|[H|H]]]; cbv zeta in H;
    injection H as -> -> -> ->; simpl; lia.
Qed.

Lemma is_exact_sum_value s xs :
  is_exact_sum s xs = true ->
  exists q, float_value s = Some q /\ q == exact_sum xs.
Proof.
  unfold is_exact_sum. destruct (float_value s) as [q|]; [|discriminate].
  intros H. exists q. split; [reflexivity|apply Qeq_bool_iff, H].
Qed.

Lemma summary_metrics_value df dv gl :
  lookup "discrepancy_value" (data df) = Some (NumCol dv) ->
  lookup "gallons" (data df) = Some (NumCol gl) ->
  calculate_summary_metrics df
  = Ok {| total_disputes := nrows df;
          total_discrepancy_value := series_sum dv;
          total_gallons := series_sum gl;
          avg_discrepancy_per_dispute := series_mean dv;
          avg_gallons_per_dispute := series_mean gl;
          total_positive_discrepancy := series_sum (mask_filter (gt_zero dv) dv);
          total_negative_discrepancy :=
            PrimFloat.abs (series_sum (mask_filter (lt_zero dv) dv));
          disputes_with_positive_value := count_true (gt_zero dv);
          disputes_with_negative_value := count_true (lt_zero dv) |}.
Proof.
  intros Hdv Hgl. unfold calculate_summary_metrics.
  rewrite (getitem_lookup _ _ _ Hdv); cbn [bind as_numeric].
  rewrite (getitem_lookup _ _ _ Hgl); cbn [bind as_numeric].
  rewrite !getitem_filter_rows, (getitem_lookup _ _ _ Hdv).
  reflexivity.
Qed.

(** C1, as amended.  On a record set whose [discrepancy_value] and
    [gallons] columns are float64 the summary is returned.  When its
    three sums (of all the values, of the positive ones and of the
    negative ones) come out without rounding error, the positive total
    minus the negative total, a magnitude that is not negative, is the
    signed total.  With or without rounding, a record whose value is zero
    is in neither count: the two counts, the zero-valued records and the
    records without a value add up to all the records. *)
Theorem C1_sign_partition_exact_sums df dv gl :
  lookup "discrepancy_value" (data df) = Some (NumCol dv) ->
  lookup "gallons" (data df) = Some (NumCol gl) ->
  is_exact_sum (series_sum dv) dv = true ->
  is_exact_sum (series_sum (mask_filter (gt_zero dv) dv))
    (mask_filter (gt_zero dv) dv) = true ->
  is_exact_sum (series_sum (mask_filter (lt_zero dv) dv))
    (mask_filter (lt_zero dv) dv) = true ->
  exists m p n t,
    calculate_summary_metrics df = Ok m
    /\ float_value (total_positive_discrepancy m) = Some p
    /\ float_value (total_negative_discrepancy m) = Some n
    /\ float_value (total_discrepancy_value m) = Some t
    /\ p - n == t
    /\ 0 <= n
    /\ (disputes_with_positive_value m + disputes_with_negative_value m
        + count_zero dv + count_nan dv = List.length dv)%nat.
Proof.
  intros Hdv Hgl Ht Hp Hn.
  apply is_exact_sum_value in Ht as (t & Ht & Et).
  apply is_exact_sum_value in Hp as (p & Hp & Ep).
  apply is_exact_sum_value in Hn as (n & Hn & En).
  destruct (abs_value _ _ Hn) as (a & Ha & Ea).
  eexists. exists p, a, t.
  split; [apply (summary_metrics_value _ _ _ Hdv Hgl)|].
  cbn [total_positive_discrepancy total_negative_discrepancy
       total_discrepancy_value disputes_with_positive_value
       disputes_with_negative_value].
  split; [exact Hp|]. split; [exact Ha|]. split; [exact Ht|].
  pose proof (exact_negative_part dv) as Hneg.
  pose proof (exact_sign_partition dv) as Hpart.
  split.
  - rewrite Ea, Qabs_neg by lra. lra.
  - split; [rewrite Ea; apply Qabs_nonneg|apply sign_partition_count].
Qed.

Lemma C1_sign_partition_exact_sums_witness :
  exists m p n t,
    calculate_summary_metrics scenario_A = Ok m
    /\ float_value (total_positive_discrepancy m) = Some p
    /\ float_value (total_negative_discrepancy m) = Some n
    /\ float_value (total_discrepancy_value m) = Some t
    /\ p - n == t
    /\ 0 <= n
    /\ (disputes_with_positive_value m + disputes_with_negative_value m
        + count_zero scenario_A_values + count_nan scenario_A_values
        = List.length scenario_A_values)%nat.
Proof.
  apply (C1_sign_partition_exact_sums scenario_A scenario_A_values
           [10; 20; 30]%float); reflexivity.
Defined.

(** C1, as stated, fails in binary64: for the amounts 0.1, -0.3 and 0.2
    the signed total is 2^-55, while the positive total minus the
    negative total is 2^-54, whether the difference is taken exactly or
    in binary64. *)
Lemma C1_rounding_breaks_partition :
  exists m p n t,
    calculate_summary_metrics tenths = Ok m
    /\ float_value (total_positive_discrepancy m) = Some p
    /\ float_value (total_negative_discrepancy m) = Some n
    /\ float_value (total_discrepancy_value m) = Some t
    /\ t == Qpower 2 (-55)
    /\ p - n == Qpower 2 (-54)
    /\ ~ p - n == t
    /\ PrimFloat.eqb
         (total_positive_discrepancy m - total_negative_discrepancy m)%float
         (total_discrepancy_value m) = false.
Proof.
  eexists. eexists. eexists. eexists.
  split; [vm_compute; reflexivity|].
  split; [vm_compute; reflexivity|].
  split; [vm_compute; reflexivity|].
  split; [vm_compute; reflexivity|].
  split; [vm_compute; reflexivity|].
  split; [vm_compute; reflexivity|].
  split; [vm_compute; discriminate|vm_compute; reflexivity].
Qed.
(** ** Sorting is a permutation *)

Lemma insert_by_perm {A : Type} (leb : A -> A -> bool) x l :
  Permutation (insert_by leb x l) (x :: l).
Proof.
  induction l as [|y l IH]; simpl; [apply Permutation_refl|].
  destruct (leb x y); [apply Permutation_refl|].
  apply perm_trans with (y :: x :: l); [apply perm_skip, IH|apply perm_swap].
Qed.

Lemma sort_by_perm {A : Type} (leb : A -> A -> bool) l :
  Permutation (sort_by leb l) l.
Proof.
  induction l as [|x l IH]; simpl; [apply perm_nil|].
  apply perm_trans with (x :: sort_by leb l);
    [apply insert_by_perm|apply perm_skip, IH].
Qed.

Lemma sort_by_length {A : Type} (leb : A -> A -> bool) l :
  List.length (sort_by leb l) = List.length l.
Proof. apply Permutation_length, sort_by_perm. Qed.

(** ** The order of nlargest *)


























(** ** calculate_top_disputes *)












(** The two records of value 30 come out in their original order. *)
Example top_disputes_ties :
  nlargest_positions 3 disputes_keys = [1; 3; 0]%nat.
Proof. vm_compute. reflexivity. Qed.

(** ** Group keys form an equivalence *)





(** ** Exact sums *)







(** ** Groups partition the rows whose key is present *)











(** ** Taking rows by position *)




(** ** calculate_by_category *)


















(** ** Rows without a category *)














(** Scenario B: the row of category X has total 20 and count 2; the
    record without a category is in no row. *)
Example scenario_B_table :
  calculate_by_category scenario_B "customerName"
  = Ok (mkDF 1 [ ("customerName", StrCol [Some "X"]);
                 ("total_discrepancy", NumCol [20]%float);
                 ("avg_discrepancy", NumCol [10]%float);
                 ("count", IntCol [2%Z]);
                 ("total_gallons", NumCol [4]%float);
                 ("avg_gallons", NumCol [2]%float);
                 ("avg_expected_rate", NumCol [2]%float);
                 ("avg_billed_rate", NumCol [2]%float) ]).
Proof. vm_compute. reflexivity. Qed.

(** ** The calendar *)

Lemma all_from_spec n z p :
  all_from n z p = true ->
  forall k, (z <= k < z + Z.of_nat n)%Z -> p k = true.
Proof.
  revert z. induction n as [|n IH]; intros z H k Hk; [lia|].
  simpl in H. apply andb_prop in H as [Hz Hrest].
  destruct (Z.eq_dec k z) as [->|Hne]; [exact Hz|].
  apply (IH (z + 1)%Z Hrest). lia.
Qed.

Lemma cycle_days_checked : all_from (Z.to_nat 146097) 0 cycle_day_ok = true.
Proof. vm_compute. reflexivity. Qed.

Lemma cycle_months_checked : all_from (Z.to_nat 4800) 0 cycle_month_ok = true.
Proof. vm_compute. reflexivity. Qed.

Lemma days_from_civil_period y m d e :
  days_from_civil (y + 400 * e) m d = (days_from_civil y m d + 146097 * e)%Z.
Proof.
  unfold days_from_civil.
  destruct (m <=? 2)%Z.
  - replace (y + 400 * e - 1)%Z with (y - 1 + e * 400)%Z by lia.
    rewrite Z.div_add by lia.
    replace (y - 1 + e * 400 - ((y - 1) / 400 + e) * 400)%Z
      with (y - 1 - (y - 1) / 400 * 400)%Z by lia.
    lia.
  - replace (y + 400 * e)%Z with (y + e * 400)%Z by lia.
    rewrite Z.div_add by lia.
    replace (y + e * 400 - (y / 400 + e) * 400)%Z
      with (y - y / 400 * 400)%Z by lia.
    lia.
Qed.

Lemma first_day_period b e :
  first_day_of_month (b + 4800 * e) = (first_day_of_month b + 146097 * e)%Z.
Proof.
  unfold first_day_of_month.
  replace (b + 4800 * e)%Z with (b + (400 * e) * 12)%Z by lia.
  rewrite Z.div_add, Z.mod_add by lia. apply days_from_civil_period.
Qed.

(** A day lies in its month. *)
Lemma month_interval d :
  (first_day_of_month (month_of_day d) <= d
   < first_day_of_month (month_of_day d + 1))%Z.
Proof.
  unfold month_of_day.
  set (z := (d + 719468)%Z).
  assert (Hdoe : (0 <= z mod 146097 < 0 + Z.of_nat (Z.to_nat 146097))%Z)
    by (pose proof (Z.mod_pos_bound z 146097); lia).
  pose proof (all_from_spec _ _ _ cycle_days_checked _ Hdoe) as Hc.
  unfold cycle_day_ok in Hc. apply andb_prop in Hc as [H1 H2].
  apply Z.leb_le in H1. apply Z.ltb_lt in H2.
  replace (4800 * (z / 146097) + month_of_cycle_day (z mod 146097) + 1)%Z
    with (month_of_cycle_day (z mod 146097) + 1 + 4800 * (z / 146097))%Z by lia.
  replace (4800 * (z / 146097) + month_of_cycle_day (z mod 146097))%Z
    with (month_of_cycle_day (z mod 146097) + 4800 * (z / 146097))%Z by lia.
  rewrite !first_day_period.
  pose proof (Z.div_mod z 146097). subst z. lia.
Qed.

Lemma first_day_next b :
  (first_day_of_month b < first_day_of_month (b + 1))%Z.
Proof.
  assert (Hr : (0 <= b mod 4800 < 0 + Z.of_nat (Z.to_nat 4800))%Z)
    by (pose proof (Z.mod_pos_bound b 4800); lia).
  pose proof (all_from_spec _ _ _ cycle_months_checked _ Hr) as Hc.
  unfold cycle_month_ok in Hc. apply Z.ltb_lt in Hc.
  pose proof (Z.div_mod b 4800).
  replace b with (b mod 4800 + 4800 * (b / 4800))%Z at 1 by lia.
  replace (b + 1)%Z with (b mod 4800 + 1 + 4800 * (b / 4800))%Z by lia.
  rewrite !first_day_period. lia.
Qed.

Lemma first_day_increasing a b :
  (a < b)%Z -> (first_day_of_month a < first_day_of_month b)%Z.
Proof.
  intros H. replace b with (a + 1 + (b - a - 1))%Z by lia.
  assert (Hn : (0 <= b - a - 1)%Z) by lia.
  generalize (b - a - 1)%Z Hn. clear b H Hn.
  apply natlike_ind.
  - rewrite Z.add_0_r. apply first_day_next.
  - intros n Hn IH.
    replace (a + 1 + Z.succ n)%Z with (a + 1 + n + 1)%Z by lia.
    pose proof (first_day_next (a + 1 + n)). lia.
Qed.

(** The month of a day is the only month the day lies in. *)
Lemma month_unique b d :
  (first_day_of_month b <= d < first_day_of_month (b + 1))%Z ->
  month_of_day d = b.
Proof.
  intros H. pose proof (month_interval d) as Hd.
  destruct (Z.lt_trichotomy (month_of_day d) b) as [Hlt|[Heq|Hgt]]; [|exact Heq|].
  - assert (first_day_of_month (month_of_day d + 1) <= first_day_of_month b)%Z.
    { destruct (Z.eq_dec (month_of_day d + 1) b) as [->|Hne]; [lia|].
      apply Z.lt_le_incl, first_day_increasing. lia. }
    lia.
  - assert (first_day_of_month (b + 1) <= first_day_of_month (month_of_day d))%Z.
    { destruct (Z.eq_dec (b + 1) (month_of_day d)) as [->|Hne]; [lia|].
      apply Z.lt_le_incl, first_day_increasing. lia. }
    lia.
Qed.

(** ** Buckets are consecutive intervals *)






(** ** Resampling *)














(** Scenario D: records on 2024-01-01 and 2024-01-03 give three daily
    buckets, the middle one with a count of 0; the record without a
    timestamp is in none. *)
Example scenario_D_table :
  calculate_by_date reads_no_date float_to_ns scenario_D "disputedAt" Freq_D
  = Ok (mkDF 3 [ ("disputedAt",
                  TimeCol [Some 1704067200000000000%Z; Some 1704153600000000000%Z;
                           Some 1704240000000000000%Z]);
                 ("total_discrepancy", NumCol [7; 0; 100]%float);
                 ("dispute_count", IntCol [1; 0; 1]%Z);
                 ("total_gallons", NumCol [3; 0; 1]%float) ]).
Proof. vm_compute. reflexivity. Qed.

(** ** Buckets partition the rows that have a timestamp *)














(** ** Missing fields and empty record sets *)











(** ** What raises and what does not *)



